(** * The CRD deletion guard of cloud-on-k8s

    A shallow embedding of
    [pkg/controller/common/webhook/customresourcedeletion.go]: the
    validating admission handler that refuses the deletion of an Elastic
    custom resource definition while objects of that type still exist in a
    managed namespace.

    Go packages become modules of the same name.  The handler talks to two
    collaborators, the admission decoder and the Kubernetes client; both are
    fields of the webhook value, as in the source.  Calls to the client and
    to the logger are the only effects of the handler; they are recorded in
    an explicit world that is threaded through the code by a small state
    monad. *)

From Stdlib Require Import ZArith Strings.Ascii Strings.String Strings.Byte.
From stdpp Require Import gmap strings list.

Local Open Scope string_scope.

(** Go's [error] interface, represented by its message. *)
Definition error : Type := string.

(** ** [strings]: the two functions [ParseGroupVersion] relies on *)
Module strings.

(** [strings.Count(s, c)] for a one-character separator. *)
Fixpoint Count (s : string) (c : ascii) : nat :=
  match s with
  | EmptyString => 0
  | String a rest =>
      if Ascii.eqb a c then S (Count rest c) else Count rest c
  end.

(** [strings.Index(s, c)]; [None] stands for Go's [-1]. *)
Fixpoint Index (s : string) (c : ascii) : option nat :=
  match s with
  | EmptyString => None
  | String a rest =>
      if Ascii.eqb a c then Some 0
      else match Index rest c with
           | Some i => Some (S i)
           | None => None
           end
  end.

(** The slice expression [s[lo:hi]]. *)
Definition slice (s : string) (lo hi : nat) : string :=
  String.substring lo (hi - lo) s.

End strings.

(** ** [k8s.io/utils/strings/slices] *)
Module slices.

(** [slices.Contains]: a linear scan comparing with [==]. *)
Fixpoint Contains (s : list string) (v : string) : bool :=
  match s with
  | [] => false
  | x :: rest => if String.eqb x v then true else Contains rest v
  end.

End slices.

(** ** [k8s.io/apimachinery/pkg/runtime/schema] *)
Module schema.

Record GroupVersion : Type := mkGV {
  gvGroup : string;
  gvVersion : string
}.

Record GroupVersionKind : Type := mkGVK {
  Group : string;
  Version : string;
  Kind : string
}.

(** [ParseGroupVersion]: the empty string and ["/"] give the empty
    group-version, no slash gives a bare version, one slash splits into
    group and version, more than one slash is an error. *)
Definition ParseGroupVersion (gv : string) : error + GroupVersion :=
  if (String.length gv =? 0)%nat || String.eqb gv "/" then
    inr (mkGV "" "")
  else
    match strings.Count gv "/"%char with
    | 0 => inr (mkGV "" gv)
    | 1 =>
        match strings.Index gv "/"%char with
        | Some i =>
            inr (mkGV (strings.slice gv 0 i)
                      (strings.slice gv (i + 1) (String.length gv)))
        | None => inr (mkGV "" gv)
        end
    | _ => inl ("unexpected GroupVersion string: " ++ gv)
    end.

(** [FromAPIVersionAndKind]: an unparsable apiVersion leaves group and
    version empty. *)
Definition FromAPIVersionAndKind (apiVersion kind : string)
  : GroupVersionKind :=
  match ParseGroupVersion apiVersion with
  | inr gv => mkGVK (gvGroup gv) (gvVersion gv) kind
  | inl _ => mkGVK "" "" kind
  end.

End schema.

(** ** [k8s.io/apimachinery/pkg/apis/meta/v1] *)
Module metav1.

Record TypeMeta : Type := mkTypeMeta {
  Kind : string;
  APIVersion : string
}.

Record ObjectMeta : Type := mkObjectMeta {
  Name : string;
  Namespace : string
}.

(** The method every API object inherits from its embedded [TypeMeta]. *)
Definition GroupVersionKind (obj : TypeMeta) : schema.GroupVersionKind :=
  schema.FromAPIVersionAndKind (APIVersion obj) (Kind obj).

End metav1.

(** ** [k8s.io/apiextensions-apiserver/pkg/apis/apiextensions/v1] *)
Module extensionsv1.

Record CustomResourceDefinitionNames : Type := mkNames {
  Plural : string;
  Kind : string
}.

Record CustomResourceDefinitionVersion : Type := mkVersion {
  Name : string;
  Served : bool;
  Storage : bool
}.

(** The group, kind and versions of the custom resource that the
    definition declares. *)
Record CustomResourceDefinitionSpec : Type := mkSpec {
  Group : string;
  Names : CustomResourceDefinitionNames;
  Versions : list CustomResourceDefinitionVersion
}.

Record CustomResourceDefinition : Type := mkCRD {
  TypeMeta : metav1.TypeMeta;
  ObjectMeta : metav1.ObjectMeta;
  Spec : CustomResourceDefinitionSpec
}.

(** [crd.GroupVersionKind()] is promoted from the embedded [TypeMeta]. *)
Definition GroupVersionKind (crd : CustomResourceDefinition)
  : schema.GroupVersionKind :=
  metav1.GroupVersionKind (TypeMeta crd).

End extensionsv1.

(** ** [k8s.io/apimachinery/pkg/apis/meta/v1/unstructured] *)
Module unstructured.

Record Unstructured : Type := mkUnstructured {
  Object : list (string * string)
}.

Record UnstructuredList : Type := mkList {
  gvk : schema.GroupVersionKind;
  Items : list Unstructured
}.

(** [&unstructured.UnstructuredList{}] *)
Definition empty : UnstructuredList := mkList (schema.mkGVK "" "" "") [].

Definition SetGroupVersionKind (ul : UnstructuredList)
    (k : schema.GroupVersionKind) : UnstructuredList :=
  mkList k (Items ul).

Definition SetItems (ul : UnstructuredList) (items : list Unstructured)
  : UnstructuredList :=
  mkList (gvk ul) items.

End unstructured.

(** ** [k8s.io/apimachinery/pkg/runtime] *)
Module runtime.

(** [RawExtension]: the serialized bytes of an embedded object. *)
Record RawExtension : Type := mkRaw {
  Raw : list byte
}.


End runtime.

(** ** [net/http] *)
Module http.

Definition StatusBadRequest : Z := 400.

End http.

(** ** [sigs.k8s.io/controller-runtime/pkg/webhook/admission] *)
Module admission.

Inductive Operation : Type := Create | Update | Delete | Connect.

Record Request : Type := mkRequest {
  UID : string;
  Kind : schema.GroupVersionKind;
  Name : string;
  Namespace : string;
  Op : Operation;
  Object : runtime.RawExtension;
  OldObject : runtime.RawExtension
}.

(** The three responses the handler builds, named after the functions
    [admission.Allowed], [admission.Denied] and [admission.Errored]. *)
Inductive Response : Type :=
| Allowed (message : string)
| Denied (message : string)
| Errored (code : Z) (err : error).

(** The decoder is a collaborator: [deserialize] is whatever its codec
    factory makes of the bytes. *)
Record Decoder : Type := mkDecoder {
  deserialize :
    list byte -> error + extensionsv1.CustomResourceDefinition
}.

(** [DecodeRaw] refuses an empty payload before it reaches the codec. *)
Definition DecodeRaw (d : Decoder) (rawObj : runtime.RawExtension)
  : error + extensionsv1.CustomResourceDefinition :=
  if (length (runtime.Raw rawObj) =? 0)%nat then
    inl "there is no content to decode"
  else deserialize d (runtime.Raw rawObj).


End admission.

(** ** Effects

    The handler has two effects: it issues [List] calls to the client and
    it writes log entries.  Both are appended to the world, most recent
    last. *)

Record ListCall : Type := mkListCall {
  callGVK : schema.GroupVersionKind;
  callNamespace : string
}.

Record LogEntry : Type := mkLogEntry {
  entryLogger : string;
  entryErr : error;
  entryMsg : string;
  entryKeysAndValues : list (string * string)
}.

Record World : Type := mkWorld {
  listed : list ListCall;
  logged : list LogEntry
}.

Definition start : World := mkWorld [] [].

Definition M (A : Type) : Type := World -> A * World.

Definition ret {A : Type} (a : A) : M A := fun w => (a, w).

Definition bind {A B : Type} (m : M A) (k : A -> M B) : M B :=
  fun w => let (a, w') := m w in k a w'.

Declare Scope go_scope.
Delimit Scope go_scope with go.
Notation "x <- c ;; k" := (bind c (fun x => k))
  (at level 100, c at next level, right associativity) : go_scope.
Notation "c ;; k" := (bind c (fun _ => k))
  (at level 100, right associativity) : go_scope.
Local Open Scope go_scope.

(** Go's [a && f()]: [f] runs only when [a] holds. *)
Definition and_then (a : bool) (f : M bool) : M bool :=
  if a then f else ret false.

(** ** [github.com/elastic/cloud-on-k8s/v2/pkg/utils/k8s] *)
Module k8s.

(** The store behind the client: the answer to a [List] of the given
    type in the given namespace. *)
Definition Client : Type :=
  schema.GroupVersionKind -> string ->
  error + list unstructured.Unstructured.

(** [client.List(ctx, ul, client.InNamespace(ns))]: the call is recorded;
    on success the items of [ul] are replaced, on failure [ul] is left as
    it was. *)
Definition List (c : Client) (ul : unstructured.UnstructuredList)
    (ns : string) : M (option error * unstructured.UnstructuredList) :=
  fun w =>
    let w' := mkWorld (listed w ++ [mkListCall (unstructured.gvk ul) ns])
                      (logged w) in
    match c (unstructured.gvk ul) ns with
    | inl err => ((Some err, ul), w')
    | inr items => ((None, unstructured.SetItems ul items), w')
    end.

End k8s.

(** ** [github.com/elastic/cloud-on-k8s/v2/pkg/utils/log] *)
Module ulog.

(** [logger.Error(err, msg, keysAndValues...)] on the logger [name]. *)
Definition Error (name : string) (err : error) (msg : string)
    (keysAndValues : list (string * string)) : M unit :=
  fun w =>
    (tt, mkWorld (listed w)
                 (logged w ++ [mkLogEntry name err msg keysAndValues])).

End ulog.

(** ** [github.com/elastic/cloud-on-k8s/v2/pkg/utils/set] *)
Module set.


End set.

(** ** [sigs.k8s.io/controller-runtime] *)
Module ctrl.


End ctrl.

(** ** The webhook *)
Module webhook.


Definition lslog : string := "crd-delete-validation".

Record crdDeletionWebhook : Type := mkWebhook {
  client : k8s.Client;
  decoder : admission.Decoder;
  managedNamespace : gset string
}.

Definition elasticGroups : list string :=
  [ "agent.k8s.elastic.co";
    "apm.k8s.elastic.co";
    "autoscaling.k8s.elastic.co";
    "beat.k8s.elastic.co";
    "elasticsearch.k8s.elastic.co";
    "enterprise-search.k8s.elastic.co";
    "kibana.k8s.elastic.co";
    "logstash.k8s.elastic.co";
    "maps.k8s.elastic.co";
    "stackconfigpolicy.k8s.elastic.co" ].

Definition isElasticCRD (gvk : schema.GroupVersionKind) : bool :=
  slices.Contains elasticGroups (schema.Group gvk).

(** The body of the [for _, ns := range ...] loop of [isInUse], over the
    namespaces still to visit; [ul] is the one list object every call
    writes into. *)
Fixpoint isInUse_range (c : k8s.Client)
    (ul : unstructured.UnstructuredList) (nss : list string) : M bool :=
  match nss with
  | [] => ret false
  | ns :: rest =>
      r <- k8s.List c ul ns ;;
      match r with
      | (Some err, _) =>
          ulog.Error lslog err "Failed to list resources"
                     [("namespace", ns)] ;;
          ret true
      | (None, ul') =>
          if (0 <? length (unstructured.Items ul'))%nat then ret true
          else isInUse_range c ul' rest
      end
  end.

Section Iteration.

(** Modelled from the spec: [set.StringSet] and its [AsSlice] method
    live in [pkg/utils/set], a package this development does not embed.
    The set is a finite set of strings and [AsSlice] lists its members,
    each once, in an order the caller cannot rely on; the statements about
    the handler assume no more of it than that. *)
Variable AsSlice : gset string -> list string.

Definition isInUse (wh : crdDeletionWebhook)
    (crd : extensionsv1.CustomResourceDefinition) : M bool :=
  let ul := unstructured.empty in
  let ul :=
    unstructured.SetGroupVersionKind ul
      {| schema.Group :=
           schema.Group (extensionsv1.GroupVersionKind crd);
         schema.Kind :=
           schema.Kind (extensionsv1.GroupVersionKind crd);
         schema.Version :=
           schema.Version (extensionsv1.GroupVersionKind crd) |} in
  isInUse_range (client wh) ul (AsSlice (managedNamespace wh)).

(** [Handle] is called when any request is sent to the webhook. *)
Definition Handle (wh : crdDeletionWebhook) (req : admission.Request)
  : M admission.Response :=
  match admission.DecodeRaw (decoder wh) (admission.Object req) with
  | inl err => ret (admission.Errored http.StatusBadRequest err)
  | inr crd =>
      deny <- and_then
                (isElasticCRD (extensionsv1.GroupVersionKind crd))
                (isInUse wh crd) ;;
      if deny then
        ret (admission.Denied "deletion of Elastic CRDs is not allowed")
      else ret (admission.Allowed "")
  end.

End Iteration.




(** The two validation hooks take Logstash objects, whose type plays no
    part, and accept everything; [None] is Go's [nil] error. *)
Definition ValidateCreate {Logstash : Type} (wh : crdDeletionWebhook)
    (ls : Logstash) : option error :=
  None.

Definition ValidateUpdate {Logstash : Type} (wh : crdDeletionWebhook)
    (prev curr : Logstash) : option error :=
  None.

End webhook.


(** ** Fixtures: a small cluster used to exercise the handler *)
Module cluster.

(** A payload whose own apiVersion and kind name an Elastic type. *)
Definition elasticsearch : extensionsv1.CustomResourceDefinition :=
  {| extensionsv1.TypeMeta :=
       {| metav1.Kind := "Elasticsearch";
          metav1.APIVersion := "elasticsearch.k8s.elastic.co/v1" |};
     extensionsv1.ObjectMeta :=
       {| metav1.Name := "elasticsearches.elasticsearch.k8s.elastic.co";
          metav1.Namespace := "" |};
     extensionsv1.Spec :=
       {| extensionsv1.Group := "elasticsearch.k8s.elastic.co";
          extensionsv1.Names :=
            {| extensionsv1.Plural := "elasticsearches";
               extensionsv1.Kind := "Elasticsearch" |};
          extensionsv1.Versions :=
            [ {| extensionsv1.Name := "v1";
                 extensionsv1.Served := true;
                 extensionsv1.Storage := true |} ] |} |}.

(** The same definition as the API server serializes it: its own type is
    [CustomResourceDefinition], the Elastic group appears in its spec
    only. *)
Definition definition : extensionsv1.CustomResourceDefinition :=
  {| extensionsv1.TypeMeta :=
       {| metav1.Kind := "CustomResourceDefinition";
          metav1.APIVersion := "apiextensions.k8s.io/v1" |};
     extensionsv1.ObjectMeta := extensionsv1.ObjectMeta elasticsearch;
     extensionsv1.Spec := extensionsv1.Spec elasticsearch |}.

(** A payload of a group the operator does not own. *)
Definition unrelated : extensionsv1.CustomResourceDefinition :=
  {| extensionsv1.TypeMeta :=
       {| metav1.Kind := "Widget";
          metav1.APIVersion := "unrelated.example.com/v1" |};
     extensionsv1.ObjectMeta :=
       {| metav1.Name := "widgets.unrelated.example.com";
          metav1.Namespace := "" |};
     extensionsv1.Spec :=
       {| extensionsv1.Group := "unrelated.example.com";
          extensionsv1.Names :=
            {| extensionsv1.Plural := "widgets";
               extensionsv1.Kind := "Widget" |};
          extensionsv1.Versions := [] |} |}.

(** A toy codec: the first byte selects the object, anything else is
    malformed. *)
Definition codec : admission.Decoder :=
  {| admission.deserialize := fun raw =>
       match raw with
       | "e"%byte :: _ => inr elasticsearch
       | "d"%byte :: _ => inr definition
       | "u"%byte :: _ => inr unrelated
       | _ => inl "couldn't get version/kind; json parse error"
       end |}.

Definition request (op : admission.Operation) (raw : list byte)
  : admission.Request :=
  {| admission.UID := "705ab4f5-6393-11e8-b7cc-42010a800002";
     admission.Kind :=
       schema.mkGVK "apiextensions.k8s.io" "v1" "CustomResourceDefinition";
     admission.Name := "elasticsearches.elasticsearch.k8s.elastic.co";
     admission.Namespace := "";
     admission.Op := op;
     admission.Object := runtime.mkRaw raw;
     admission.OldObject := runtime.mkRaw [] |}.

Definition quickstart : unstructured.Unstructured :=
  {| unstructured.Object := [("metadata.name", "quickstart")] |}.

(** A store with one object, in [ns-b]. *)
Definition oneInB : k8s.Client :=
  fun _ ns => if String.eqb ns "ns-b" then inr [quickstart] else inr [].

(** A store with no object at all. *)
Definition vacant : k8s.Client := fun _ _ => inr [].

(** A store whose [ns-b] cannot be reached. *)
Definition brokenB : k8s.Client :=
  fun _ ns =>
    if String.eqb ns "ns-b" then inl "connection refused" else inr [].

Definition guard (c : k8s.Client) (nss : gset string)
  : webhook.crdDeletionWebhook :=
  {| webhook.client := c;
     webhook.decoder := codec;
     webhook.managedNamespace := nss |}.

Definition ab : gset string := {[ "ns-a"; "ns-b" ]}.


End cluster.

(** ** Vocabulary of the statements *)

(** The calls a visit of the namespaces [nss] for the type [k] makes. *)
Definition calls (k : schema.GroupVersionKind) (nss : list string)
  : list ListCall :=
  map (mkListCall k) nss.

(** A namespace stops the usage check when its [List] fails or returns
    something. *)
Definition reports_use (c : k8s.Client) (k : schema.GroupVersionKind)
    (ns : string) : bool :=
  match c k ns with
  | inl _ => true
  | inr items => (0 <? length items)%nat
  end.

(** HTTP status codes of the 4xx class. *)
Definition client_error (code : Z) : Prop := (400 <= code < 500)%Z.

(** ** The classifier *)

Lemma Contains_elem_of (l : list string) (v : string) :
  slices.Contains l v = true <-> v ∈ l.
Proof.
  induction l as [|x l IH]; simpl.
  - split; [discriminate | intros H; inversion H].
  - destruct (String.eqb_spec x v) as [->|Hne].
    + split; [intros _; left | reflexivity].
    + rewrite IH. split; [intros H; now right|].
      intros H. apply elem_of_cons in H as [H|H]; [congruence | exact H].
Qed.

Lemma isElasticCRD_true (k : schema.GroupVersionKind) :
  webhook.isElasticCRD k = true <-> schema.Group k ∈ webhook.elasticGroups.
Proof. apply Contains_elem_of. Qed.

Lemma isElasticCRD_false (k : schema.GroupVersionKind) :
  webhook.isElasticCRD k = false <-> schema.Group k ∉ webhook.elasticGroups.
Proof.
  rewrite <- isElasticCRD_true.
  destruct (webhook.isElasticCRD k); split; congruence.
Qed.

(** ** The loop of the usage check *)

Lemma GroupVersionKind_rebuilt (k : schema.GroupVersionKind) :
  {| schema.Group := schema.Group k;
     schema.Kind := schema.Kind k;
     schema.Version := schema.Version k |} = k.
Proof. now destruct k. Qed.

(** What a list object holds before a call has no influence on the loop. *)
Lemma isInUse_range_items c k items items' nss w :
  webhook.isInUse_range c (unstructured.mkList k items) nss w =
  webhook.isInUse_range c (unstructured.mkList k items') nss w.
Proof.
  destruct nss as [|ns rest]; [reflexivity|].
  simpl. unfold bind, k8s.List. simpl.
  now destruct (c k ns).
Qed.

(** Namespaces that answer with an empty list are passed over. *)
Lemma isInUse_range_skip c k items pre rest w :
  Forall (fun ns => c k ns = inr []) pre ->
  webhook.isInUse_range c (unstructured.mkList k items) (pre ++ rest) w =
  webhook.isInUse_range c (unstructured.mkList k items) rest
    (mkWorld (listed w ++ calls k pre) (logged w)).
Proof.
  intros Hpre. revert items w.
  induction Hpre as [|ns pre Hns _ IH]; intros items w.
  - simpl. rewrite app_nil_r. now destruct w.
  - simpl. unfold bind at 1, k8s.List at 1. simpl. rewrite Hns. simpl.
    unfold unstructured.SetItems. simpl.
    rewrite IH. simpl. rewrite <- app_assoc. simpl.
    apply isInUse_range_items.
Qed.

Lemma isInUse_range_found c k items0 ns items rest w :
  c k ns = inr items -> (0 < length items)%nat ->
  webhook.isInUse_range c (unstructured.mkList k items0) (ns :: rest) w =
  (true, mkWorld (listed w ++ calls k [ns]) (logged w)).
Proof.
  intros Hns Hlen. simpl. unfold bind, k8s.List. simpl. rewrite Hns. simpl.
  destruct items; [simpl in Hlen; lia | reflexivity].
Qed.

Lemma isInUse_range_failed c k items0 ns err rest w :
  c k ns = inl err ->
  webhook.isInUse_range c (unstructured.mkList k items0) (ns :: rest) w =
  (true,
   mkWorld (listed w ++ calls k [ns])
           (logged w ++ [mkLogEntry webhook.lslog err
                           "Failed to list resources"
                           [("namespace", ns)]])).
Proof.
  intros Hns. simpl. unfold bind, k8s.List. simpl. now rewrite Hns.
Qed.

(** The outcome of the loop is the disjunction of [reports_use] over the
    namespaces, whatever their order. *)
Lemma isInUse_range_verdict c k items nss w :
  fst (webhook.isInUse_range c (unstructured.mkList k items) nss w) =
  existsb (reports_use c k) nss.
Proof.
  revert items w. induction nss as [|ns rest IH]; intros items w.
  - reflexivity.
  - simpl. unfold bind, k8s.List, reports_use. simpl.
    destruct (c k ns) as [err|found]; simpl; [reflexivity|].
    destruct found; simpl; [apply IH | reflexivity].
Qed.

Lemma existsb_Permutation {A} (f : A -> bool) (l l' : list A) :
  l ≡ₚ l' -> existsb f l = existsb f l'.
Proof.
  induction 1; simpl; try congruence.
  now destruct (f x), (f y).
Qed.

(** Every call of the loop asks for the type of the list object, in a
    namespace taken from the front of the slice, and log entries are only
    added. *)
Lemma isInUse_range_listed c k items nss w :
  exists n extra,
    snd (webhook.isInUse_range c (unstructured.mkList k items) nss w) =
    mkWorld (listed w ++ calls k (take n nss)) (logged w ++ extra).
Proof.
  revert items w. induction nss as [|ns rest IH]; intros items w.
  - exists 0, []. simpl. rewrite !app_nil_r. now destruct w.
  - simpl. unfold bind, k8s.List, unstructured.SetItems. simpl.
    destruct (c k ns) as [err|found]; simpl.
    + exists 1. eexists. reflexivity.
    + destruct found; simpl.
      * destruct (IH [] (mkWorld (listed w ++ [mkListCall k ns]) (logged w)))
          as (n & extra & ->).
        exists (S n), extra. simpl. now rewrite <- app_assoc.
      * exists 1, []. simpl. now rewrite app_nil_r.
Qed.

(** ** The handler *)

Section Properties.

(** The order in which the managed namespaces are visited is left open:
    every statement below holds for each enumeration of the set. *)
Variable AsSlice : gset string -> list string.
Hypothesis AsSlice_members : forall s, AsSlice s ≡ₚ elements s.

Lemma isInUse_as_range wh crd :
  webhook.isInUse AsSlice wh crd =
  webhook.isInUse_range (webhook.client wh)
    (unstructured.mkList (extensionsv1.GroupVersionKind crd) [])
    (AsSlice (webhook.managedNamespace wh)).
Proof.
  unfold webhook.isInUse. now rewrite GroupVersionKind_rebuilt.
Qed.

Lemma Handle_protected wh req crd w :
  admission.DecodeRaw (webhook.decoder wh) (admission.Object req) = inr crd ->
  schema.Group (extensionsv1.GroupVersionKind crd) ∈ webhook.elasticGroups ->
  webhook.Handle AsSlice wh req w =
  let (deny, w') :=
    webhook.isInUse_range (webhook.client wh)
      (unstructured.mkList (extensionsv1.GroupVersionKind crd) [])
      (AsSlice (webhook.managedNamespace wh)) w in
  if deny then
    (admission.Denied "deletion of Elastic CRDs is not allowed", w')
  else (admission.Allowed "", w').
Proof.
  intros Hdec Hprot. apply isElasticCRD_true in Hprot.
  unfold webhook.Handle. rewrite Hdec, Hprot. simpl.
  unfold bind. rewrite isInUse_as_range.
  destruct (webhook.isInUse_range _ _ _ w) as [[|] w']; reflexivity.
Qed.

Lemma Handle_unprotected wh req crd w :
  admission.DecodeRaw (webhook.decoder wh) (admission.Object req) = inr crd ->
  webhook.isElasticCRD (extensionsv1.GroupVersionKind crd) = false ->
  webhook.Handle AsSlice wh req w = (admission.Allowed "", w).
Proof.
  intros Hdec Hno. unfold webhook.Handle. now rewrite Hdec, Hno.
Qed.

(** C1. When the payload decodes to a protected type and, in the order of
    the visit, some namespace is the first whose [List] succeeds with at
    least one object, all namespaces before it having answered with an empty
    list, [Handle] denies the request, and the [List] calls it has made are
    exactly those for the namespaces up to and including that one: no later
    namespace is queried. *)
Theorem Handle_denies_at_first_instance wh req crd pre ns post items w :
  admission.DecodeRaw (webhook.decoder wh) (admission.Object req) = inr crd ->
  schema.Group (extensionsv1.GroupVersionKind crd) ∈ webhook.elasticGroups ->
  AsSlice (webhook.managedNamespace wh) = (pre ++ ns :: post)%list ->
  Forall (fun n =>
            webhook.client wh (extensionsv1.GroupVersionKind crd) n = inr [])
         pre ->
  webhook.client wh (extensionsv1.GroupVersionKind crd) ns = inr items ->
  (0 < length items)%nat ->
  webhook.Handle AsSlice wh req w =
  (admission.Denied "deletion of Elastic CRDs is not allowed",
   mkWorld (listed w
            ++ calls (extensionsv1.GroupVersionKind crd) (pre ++ [ns]))
           (logged w)).
Proof.
  intros Hdec Hprot Hslice Hpre Hns Hlen.
  rewrite (Handle_protected _ _ crd) by assumption.
  rewrite Hslice, isInUse_range_skip by assumption.
  rewrite (isInUse_range_found _ _ _ _ items) by assumption.
  simpl. unfold calls. now rewrite map_app, app_assoc.
Qed.

(** C2. When the payload decodes to a protected type and, in the order of
    the visit, the [List] of some namespace fails while all namespaces
    before it answered with an empty list, [Handle] answers [Denied] (not
    [Errored]), the error is written to the log with the namespace, and
    the [List] calls made stop at the failing namespace. *)
Theorem Handle_denies_on_list_error wh req crd pre ns post err w :
  admission.DecodeRaw (webhook.decoder wh) (admission.Object req) = inr crd ->
  schema.Group (extensionsv1.GroupVersionKind crd) ∈ webhook.elasticGroups ->
  AsSlice (webhook.managedNamespace wh) = (pre ++ ns :: post)%list ->
  Forall (fun n =>
            webhook.client wh (extensionsv1.GroupVersionKind crd) n = inr [])
         pre ->
  webhook.client wh (extensionsv1.GroupVersionKind crd) ns = inl err ->
  webhook.Handle AsSlice wh req w =
  (admission.Denied "deletion of Elastic CRDs is not allowed",
   mkWorld (listed w
            ++ calls (extensionsv1.GroupVersionKind crd) (pre ++ [ns]))
           (logged w
            ++ [mkLogEntry "crd-delete-validation" err
                  "Failed to list resources" [("namespace", ns)]])).
Proof.
  intros Hdec Hprot Hslice Hpre Hns.
  rewrite (Handle_protected _ _ crd) by assumption.
  rewrite Hslice, isInUse_range_skip by assumption.
  rewrite (isInUse_range_failed _ _ _ _ err) by assumption.
  simpl. unfold calls. now rewrite map_app, app_assoc.
Qed.

(** C3. When the payload decodes and the group of its type is not one of
    the protected groups, [Handle] allows the request whatever the client
    would answer, and the world is left as it was: no [List] call is
    made. *)
Theorem Handle_allows_other_groups wh req crd w :
  admission.DecodeRaw (webhook.decoder wh) (admission.Object req) = inr crd ->
  schema.Group (extensionsv1.GroupVersionKind crd) ∉ webhook.elasticGroups ->
  webhook.Handle AsSlice wh req w = (admission.Allowed "", w).
Proof.
  intros Hdec Hno. apply isElasticCRD_false in Hno.
  now apply (Handle_unprotected _ _ crd).
Qed.

(** C4. When the payload decodes to a protected type and the [List] of
    every managed namespace succeeds with no object, [Handle] allows the
    request, after one call per managed namespace and without logging. *)
Theorem Handle_allows_unused wh req crd w :
  admission.DecodeRaw (webhook.decoder wh) (admission.Object req) = inr crd ->
  schema.Group (extensionsv1.GroupVersionKind crd) ∈ webhook.elasticGroups ->
  (forall ns, ns ∈ webhook.managedNamespace wh ->
     webhook.client wh (extensionsv1.GroupVersionKind crd) ns = inr []) ->
  webhook.Handle AsSlice wh req w =
  (admission.Allowed "",
   mkWorld (listed w
            ++ calls (extensionsv1.GroupVersionKind crd)
                 (AsSlice (webhook.managedNamespace wh)))
           (logged w)).
Proof.
  intros Hdec Hprot Hall.
  rewrite (Handle_protected _ _ crd) by assumption.
  rewrite <- (app_nil_r (AsSlice _)) at 1.
  rewrite isInUse_range_skip; [reflexivity|].
  apply Forall_forall. intros ns Hin. apply Hall.
  rewrite (AsSlice_members (webhook.managedNamespace wh)) in Hin.
  now apply elem_of_elements in Hin.
Qed.

(** C5. When the payload does not decode, [Handle] answers [Errored] with
    status 400, a client error, and the cause reported by the decoder; the
    world is left as it was, so no [List] call is made.  Nothing about the
    type the payload might have named enters the statement. *)
Theorem Handle_rejects_undecodable wh req err w :
  admission.DecodeRaw (webhook.decoder wh) (admission.Object req) = inl err ->
  webhook.Handle AsSlice wh req w =
    (admission.Errored http.StatusBadRequest err, w)
  /\ client_error http.StatusBadRequest.
Proof.
  intros Hdec. split.
  - unfold webhook.Handle. now rewrite Hdec.
  - unfold client_error, http.StatusBadRequest. lia.
Qed.

(** The verdict alone, for any payload that decodes. *)
Lemma Handle_verdict wh req crd w :
  admission.DecodeRaw (webhook.decoder wh) (admission.Object req) = inr crd ->
  fst (webhook.Handle AsSlice wh req w) =
  if webhook.isElasticCRD (extensionsv1.GroupVersionKind crd)
     && existsb (reports_use (webhook.client wh)
                   (extensionsv1.GroupVersionKind crd))
          (elements (webhook.managedNamespace wh))
  then admission.Denied "deletion of Elastic CRDs is not allowed"
  else admission.Allowed "".
Proof.
  intros Hdec.
  rewrite <- (existsb_Permutation _ _ _ (AsSlice_members _)).
  destruct (webhook.isElasticCRD (extensionsv1.GroupVersionKind crd)) eqn:Hk.
  - apply isElasticCRD_true in Hk.
    rewrite (Handle_protected _ _ crd) by assumption.
    rewrite <- (isInUse_range_verdict _ _ [] _ w).
    now destruct (webhook.isInUse_range _ _ _ w) as [[|] w'].
  - now rewrite (Handle_unprotected _ _ crd).
Qed.

(** C6 (amended). In the scenario with managed namespaces [ns-a] and
    [ns-b], a payload of group [elasticsearch.k8s.elastic.co], no object in
    [ns-a] and one object in [ns-b], [Handle] answers [Denied] with the
    reason "deletion of Elastic CRDs is not allowed", in whichever order the
    two namespaces are visited. *)
Theorem Handle_scenario_instance_in_ns_b wh req crd item w :
  webhook.managedNamespace wh = {[ "ns-a"; "ns-b" ]} ->
  admission.DecodeRaw (webhook.decoder wh) (admission.Object req) = inr crd ->
  schema.Group (extensionsv1.GroupVersionKind crd)
    = "elasticsearch.k8s.elastic.co" ->
  webhook.client wh (extensionsv1.GroupVersionKind crd) "ns-a" = inr [] ->
  webhook.client wh (extensionsv1.GroupVersionKind crd) "ns-b"
    = inr [item] ->
  fst (webhook.Handle AsSlice wh req w) =
  admission.Denied "deletion of Elastic CRDs is not allowed".
Proof.
  intros Hset Hdec Hgroup Ha Hb.
  rewrite (Handle_verdict _ _ crd) by assumption.
  unfold webhook.isElasticCRD. rewrite Hgroup, Hset.
  replace (elements _) with ["ns-a"; "ns-b"] by (vm_compute; reflexivity).
  simpl. unfold reports_use. now rewrite Ha, Hb.
Qed.

(** C7. The classifier answers [true] exactly for the types whose group is
    equal to one of the ten listed groups; it looks at nothing but the
    group; and being a total boolean function it answers [false], rather
    than failing, for the empty group and for every other group. *)
Theorem isElasticCRD_exact_membership :
  (forall k : schema.GroupVersionKind,
     webhook.isElasticCRD k
     = bool_decide (schema.Group k ∈ webhook.elasticGroups))
  /\ (forall g v v' kd kd',
        webhook.isElasticCRD (schema.mkGVK g v kd)
        = webhook.isElasticCRD (schema.mkGVK g v' kd'))
  /\ (forall v kd, webhook.isElasticCRD (schema.mkGVK "" v kd) = false)
  /\ webhook.isElasticCRD (schema.mkGVK "k8s.elastic.co" "v1" "Kibana")
     = false
  /\ webhook.isElasticCRD (schema.mkGVK "kibana.k8s.elastic" "v1" "Kibana")
     = false
  /\ webhook.isElasticCRD
       (schema.mkGVK "kibana.k8s.elastic.co.example.com" "v1" "Kibana")
     = false
  /\ webhook.isElasticCRD (schema.mkGVK "*.k8s.elastic.co" "v1" "Kibana")
     = false.
Proof.
  split; [|repeat split].
  intros k. destruct (webhook.isElasticCRD k) eqn:Hk; symmetry.
  - apply bool_decide_eq_true. now apply isElasticCRD_true.
  - apply bool_decide_eq_false. now apply isElasticCRD_false.
Qed.

(** C8. For a payload that decodes, let [k] be the type read from the
    apiVersion and kind of the decoded object itself.  Every [List] call of
    [Handle] asks for [k]; calls are made only if the classifier accepts
    [k]; the verdict is [Denied] exactly when the classifier accepts [k] and
    some managed namespace reports use of [k].  Hence a second payload with
    the same apiVersion and kind gets the same answer through the same
    calls, whatever group, names and versions the two specs declare. *)
Theorem Handle_lists_the_classified_type wh req crd w :
  admission.DecodeRaw (webhook.decoder wh) (admission.Object req) = inr crd ->
  let k :=
    schema.FromAPIVersionAndKind
      (metav1.APIVersion (extensionsv1.TypeMeta crd))
      (metav1.Kind (extensionsv1.TypeMeta crd)) in
  (exists n extra,
     snd (webhook.Handle AsSlice wh req w) =
       mkWorld
         (listed w ++ calls k (take n (AsSlice (webhook.managedNamespace wh))))
         (logged w ++ extra)
     /\ (webhook.isElasticCRD k = false -> n = 0))
  /\ fst (webhook.Handle AsSlice wh req w) =
     (if webhook.isElasticCRD k
         && existsb (reports_use (webhook.client wh) k)
              (AsSlice (webhook.managedNamespace wh))
      then admission.Denied "deletion of Elastic CRDs is not allowed"
      else admission.Allowed "")
  /\ (forall wh' req' crd',
        webhook.client wh' = webhook.client wh ->
        webhook.managedNamespace wh' = webhook.managedNamespace wh ->
        admission.DecodeRaw (webhook.decoder wh') (admission.Object req')
          = inr crd' ->
        extensionsv1.TypeMeta crd' = extensionsv1.TypeMeta crd ->
        webhook.Handle AsSlice wh' req' w = webhook.Handle AsSlice wh req w).
Proof.
  intros Hdec k.
  change k with (extensionsv1.GroupVersionKind crd). clear k.
  split; [|split].
  - destruct (webhook.isElasticCRD (extensionsv1.GroupVersionKind crd))
      eqn:Hk.
    + apply isElasticCRD_true in Hk.
      rewrite (Handle_protected _ _ crd) by assumption.
      destruct (isInUse_range_listed (webhook.client wh)
                  (extensionsv1.GroupVersionKind crd) []
                  (AsSlice (webhook.managedNamespace wh)) w)
        as (n & extra & Hw).
      exists n, extra. split; [|discriminate].
      now destruct (webhook.isInUse_range _ _ _ w) as [[|] w'].
    + rewrite (Handle_unprotected _ _ crd) by assumption.
      exists 0, []. simpl. rewrite !app_nil_r. now destruct w.
  - rewrite (Handle_verdict _ _ crd) by assumption.
    now rewrite (existsb_Permutation _ _ _ (AsSlice_members _)).
  - intros wh' req' crd' Hc Hm Hdec' Htm.
    unfold webhook.Handle. rewrite Hdec, Hdec'.
    unfold webhook.isInUse, extensionsv1.GroupVersionKind.
    now rewrite Hc, Hm, Htm.
Qed.

(** C9. With no managed namespace, the usage check of any decoded payload,
    protected or not, makes no [List] call and reports no use, and [Handle]
    allows the request. *)
Theorem Handle_allows_without_namespaces wh req crd w :
  webhook.managedNamespace wh = ∅ ->
  admission.DecodeRaw (webhook.decoder wh) (admission.Object req) = inr crd ->
  webhook.isInUse AsSlice wh crd w = (false, w)
  /\ webhook.Handle AsSlice wh req w = (admission.Allowed "", w).
Proof.
  intros Hset Hdec.
  assert (Hnil : AsSlice (webhook.managedNamespace wh) = []).
  { apply Permutation_nil_r. rewrite AsSlice_members, Hset.
    now rewrite elements_empty. }
  assert (Huse : webhook.isInUse AsSlice wh crd w = (false, w)).
  { rewrite isInUse_as_range, Hnil. reflexivity. }
  split; [exact Huse|].
  unfold webhook.Handle. rewrite Hdec.
  destruct (webhook.isElasticCRD _); [|reflexivity].
  simpl. unfold bind. now rewrite Huse.
Qed.

End Properties.

(** C10. With the client and the managed namespaces fixed, the verdict of
    [Handle] is determined by the payload bytes of the request: two
    requests with the same [Object] get the same verdict, whatever their
    other fields (operation included), whatever the world they start from
    and whatever the order of the visit; under one order and from one world
    the whole run, calls and log included, is the same. *)
Theorem Handle_verdict_depends_on_object_only
    (AsSlice1 AsSlice2 : gset string -> list string)
    wh req1 req2 w1 w2 :
  (forall s, AsSlice1 s ≡ₚ elements s) ->
  (forall s, AsSlice2 s ≡ₚ elements s) ->
  admission.Object req1 = admission.Object req2 ->
  fst (webhook.Handle AsSlice1 wh req1 w1)
    = fst (webhook.Handle AsSlice2 wh req2 w2)
  /\ webhook.Handle AsSlice1 wh req1 w1 = webhook.Handle AsSlice1 wh req2 w1.
Proof.
  intros H1 H2 Hobj. split.
  - destruct (admission.DecodeRaw (webhook.decoder wh) (admission.Object req1))
      as [err|crd] eqn:Hdec.
    + unfold webhook.Handle. rewrite <- Hobj, Hdec. reflexivity.
    + rewrite (Handle_verdict AsSlice1 H1 _ _ crd) by assumption.
      rewrite (Handle_verdict AsSlice2 H2 _ _ crd) by (now rewrite <- Hobj).
      reflexivity.
  - unfold webhook.Handle. now rewrite Hobj.
Qed.

(** ** The statements at work on the small cluster *)

(** The payload the API server sends for a definition names the type
    [CustomResourceDefinition]; the Elastic group in its spec is not
    consulted, so it is allowed without a call even though [ns-b] holds an
    object. *)
Example definition_payload_is_allowed :
  webhook.Handle elements (cluster.guard cluster.oneInB cluster.ab)
    (cluster.request admission.Delete ["d"%byte]) start
  = (admission.Allowed "", start).
Proof. vm_compute. reflexivity. Qed.

Lemma Handle_denies_at_first_instance_witness :
  webhook.Handle elements (cluster.guard cluster.oneInB cluster.ab)
    (cluster.request admission.Delete ["e"%byte]) start
  = (admission.Denied "deletion of Elastic CRDs is not allowed",
     mkWorld
       (start.(listed)
        ++ calls (extensionsv1.GroupVersionKind cluster.elasticsearch)
             (["ns-a"] ++ ["ns-b"]))
       start.(logged)).
Proof.
  apply (Handle_denies_at_first_instance elements
           (cluster.guard cluster.oneInB cluster.ab)
           (cluster.request admission.Delete ["e"%byte])
           cluster.elasticsearch ["ns-a"] "ns-b" [] [cluster.quickstart]
           start).
  - reflexivity.
  - apply isElasticCRD_true. reflexivity.
  - vm_compute. reflexivity.
  - repeat constructor.
  - reflexivity.
  - simpl. lia.
Defined.

Lemma Handle_denies_on_list_error_witness :
  webhook.Handle elements (cluster.guard cluster.brokenB cluster.ab)
    (cluster.request admission.Delete ["e"%byte]) start
  = (admission.Denied "deletion of Elastic CRDs is not allowed",
     mkWorld
       (start.(listed)
        ++ calls (extensionsv1.GroupVersionKind cluster.elasticsearch)
             (["ns-a"] ++ ["ns-b"]))
       (start.(logged)
        ++ [mkLogEntry "crd-delete-validation" "connection refused"
              "Failed to list resources" [("namespace", "ns-b")]])).
Proof.
  apply (Handle_denies_on_list_error elements
           (cluster.guard cluster.brokenB cluster.ab)
           (cluster.request admission.Delete ["e"%byte])
           cluster.elasticsearch ["ns-a"] "ns-b" [] "connection refused"
           start).
  - reflexivity.
  - apply isElasticCRD_true. reflexivity.
  - vm_compute. reflexivity.
  - repeat constructor.
  - reflexivity.
Defined.

Lemma Handle_allows_other_groups_witness :
  webhook.Handle elements (cluster.guard cluster.brokenB cluster.ab)
    (cluster.request admission.Delete ["u"%byte]) start
  = (admission.Allowed "", start).
Proof.
  apply (Handle_allows_other_groups elements
           (cluster.guard cluster.brokenB cluster.ab)
           (cluster.request admission.Delete ["u"%byte])
           cluster.unrelated start).
  - reflexivity.
  - apply isElasticCRD_false. reflexivity.
Defined.

Lemma Handle_allows_unused_witness :
  webhook.Handle elements (cluster.guard cluster.vacant cluster.ab)
    (cluster.request admission.Delete ["e"%byte]) start
  = (admission.Allowed "",
     mkWorld
       (start.(listed)
        ++ calls (extensionsv1.GroupVersionKind cluster.elasticsearch)
             (elements cluster.ab))
       start.(logged)).
Proof.
  apply (Handle_allows_unused elements (fun s => reflexivity _)
           (cluster.guard cluster.vacant cluster.ab)
           (cluster.request admission.Delete ["e"%byte])
           cluster.elasticsearch start).
  - reflexivity.
  - apply isElasticCRD_true. reflexivity.
  - intros ns _. reflexivity.
Defined.

Lemma Handle_rejects_undecodable_witness :
  webhook.Handle elements (cluster.guard cluster.oneInB cluster.ab)
    (cluster.request admission.Delete []) start
  = (admission.Errored 400 "there is no content to decode", start)
  /\ client_error 400.
Proof.
  apply (Handle_rejects_undecodable elements
           (cluster.guard cluster.oneInB cluster.ab)
           (cluster.request admission.Delete [])
           "there is no content to decode" start).
  reflexivity.
Defined.

(** C6 as the specification words it fails on the reason: in its scenario
    the handler does not answer with "deletion of protected resource-type
    is not allowed". *)
Lemma Handle_scenario_reason_differs :
  webhook.managedNamespace (cluster.guard cluster.oneInB cluster.ab)
    = {[ "ns-a"; "ns-b" ]}
  /\ admission.DecodeRaw
       (webhook.decoder (cluster.guard cluster.oneInB cluster.ab))
       (admission.Object (cluster.request admission.Delete ["e"%byte]))
     = inr cluster.elasticsearch
  /\ schema.Group (extensionsv1.GroupVersionKind cluster.elasticsearch)
     = "elasticsearch.k8s.elastic.co"
  /\ cluster.oneInB (extensionsv1.GroupVersionKind cluster.elasticsearch)
       "ns-a" = inr []
  /\ cluster.oneInB (extensionsv1.GroupVersionKind cluster.elasticsearch)
       "ns-b" = inr [cluster.quickstart]
  /\ fst (webhook.Handle elements
            (cluster.guard cluster.oneInB cluster.ab)
            (cluster.request admission.Delete ["e"%byte]) start)
     <> admission.Denied "deletion of protected resource-type is not allowed".
Proof.
  repeat split. vm_compute. discriminate.
Qed.

Lemma Handle_scenario_instance_in_ns_b_witness :
  fst (webhook.Handle elements (cluster.guard cluster.oneInB cluster.ab)
         (cluster.request admission.Delete ["e"%byte]) start)
  = admission.Denied "deletion of Elastic CRDs is not allowed".
Proof.
  apply (Handle_scenario_instance_in_ns_b elements (fun s => reflexivity _)
           (cluster.guard cluster.oneInB cluster.ab)
           (cluster.request admission.Delete ["e"%byte])
           cluster.elasticsearch cluster.quickstart start);
    reflexivity.
Defined.

Lemma Handle_lists_the_classified_type_witness :
  snd (webhook.Handle elements (cluster.guard cluster.oneInB cluster.ab)
         (cluster.request admission.Delete ["e"%byte]) start)
  = mkWorld
      (calls (schema.mkGVK "elasticsearch.k8s.elastic.co" "v1" "Elasticsearch")
         ["ns-a"; "ns-b"])
      []
  /\ fst (webhook.Handle elements (cluster.guard cluster.oneInB cluster.ab)
            (cluster.request admission.Delete ["e"%byte]) start)
     = admission.Denied "deletion of Elastic CRDs is not allowed".
Proof.
  destruct (Handle_lists_the_classified_type elements
              (fun s => reflexivity _)
              (cluster.guard cluster.oneInB cluster.ab)
              (cluster.request admission.Delete ["e"%byte])
              cluster.elasticsearch start eq_refl)
    as (_ & Hverdict & _).
  split; [reflexivity | exact Hverdict].
Defined.

Lemma Handle_allows_without_namespaces_witness :
  webhook.isInUse elements (cluster.guard cluster.oneInB ∅)
    cluster.elasticsearch start = (false, start)
  /\ webhook.Handle elements (cluster.guard cluster.oneInB ∅)
       (cluster.request admission.Delete ["e"%byte]) start
     = (admission.Allowed "", start).
Proof.
  apply (Handle_allows_without_namespaces elements (fun s => reflexivity _)
           (cluster.guard cluster.oneInB ∅)
           (cluster.request admission.Delete ["e"%byte])
           cluster.elasticsearch start);
    reflexivity.
Defined.

Lemma Handle_verdict_depends_on_object_only_witness :
  fst (webhook.Handle elements (cluster.guard cluster.brokenB cluster.ab)
         (cluster.request admission.Delete ["e"%byte]) start)
  = fst (webhook.Handle (fun s => reverse (elements s))
           (cluster.guard cluster.brokenB cluster.ab)
           (cluster.request admission.Create ["e"%byte])
           (mkWorld [mkListCall (schema.mkGVK "" "v1" "Pod") "default"] []))
  /\ webhook.Handle elements (cluster.guard cluster.brokenB cluster.ab)
       (cluster.request admission.Delete ["e"%byte]) start
     = webhook.Handle elements (cluster.guard cluster.brokenB cluster.ab)
         (cluster.request admission.Create ["e"%byte]) start.
Proof.
  apply (Handle_verdict_depends_on_object_only
           elements (fun s => reverse (elements s))
           (cluster.guard cluster.brokenB cluster.ab)
           (cluster.request admission.Delete ["e"%byte])
           (cluster.request admission.Create ["e"%byte])
           start
           (mkWorld [mkListCall (schema.mkGVK "" "v1" "Pod") "default"] [])).
  - intros s. reflexivity.
  - intros s. apply reverse_Permutation.
  - reflexivity.
Defined.

(** ** Further properties of the usage check and the handler *)

Lemma reports_use_false c k ns :
  reports_use c k ns = false <-> c k ns = inr [].
Proof.
  unfold reports_use.
  destruct (c k ns) as [err|[|item items]]; split; intros H;
    (reflexivity || discriminate H).
Qed.

Lemma reports_use_true c k ns :
  reports_use c k ns = true <->
  (exists err, c k ns = inl err)
  \/ (exists item items, c k ns = inr (item :: items)).
Proof.
  unfold reports_use. destruct (c k ns) as [err|[|item items]]; simpl.
  - split; [intros _; left; now exists err | reflexivity].
  - split; [discriminate|]. intros [[err H]|(item & items & H)]; discriminate.
  - split; [intros _; right; now exists item, items | reflexivity].
Qed.

(** A list either has no element satisfying [f] or splits at the first
    one. *)
Lemma first_true {A} (f : A -> bool) (l : list A) :
  Forall (fun x => f x = false) l
  \/ exists pre x post,
       l = (pre ++ x :: post)%list
       /\ Forall (fun x => f x = false) pre /\ f x = true.
Proof.
  induction l as [|a l IH].
  - left. constructor.
  - destruct (f a) eqn:Ha.
    + right. exists [], a, l. repeat split; [constructor | exact Ha].
    + destruct IH as [IH|(pre & x & post & -> & Hpre & Hx)].
      * left. now constructor.
      * right. exists (a :: pre), x, post. repeat split; [|exact Hx].
        now constructor.
Qed.

(** The three ways the loop can end, each with the whole run it leaves
    behind, from any world and with any items left in the list object. *)
Lemma isInUse_range_cases c k nss :
  (Forall (fun ns => c k ns = inr []) nss
   /\ forall items w,
        webhook.isInUse_range c (unstructured.mkList k items) nss w =
        (false, mkWorld (listed w ++ calls k nss) (logged w)))
  \/ exists pre ns post,
       nss = (pre ++ ns :: post)%list
       /\ Forall (fun ns => c k ns = inr []) pre
       /\ ((exists item found,
              c k ns = inr (item :: found)
              /\ forall items w,
                   webhook.isInUse_range c (unstructured.mkList k items) nss w
                   = (true,
                      mkWorld (listed w ++ calls k (pre ++ [ns])) (logged w)))
           \/ (exists err,
                 c k ns = inl err
                 /\ forall items w,
                      webhook.isInUse_range c (unstructured.mkList k items)
                        nss w
                      = (true,
                         mkWorld (listed w ++ calls k (pre ++ [ns]))
                           (logged w
                            ++ [mkLogEntry webhook.lslog err
                                  "Failed to list resources"
                                  [("namespace", ns)]])))).
Proof.
  destruct (first_true (reports_use c k) nss)
    as [Hall|(pre & ns & post & -> & Hpre & Hns)].
  - left.
    assert (Hq : Forall (fun ns => c k ns = inr []) nss).
    { eapply Forall_impl; [exact Hall|].
      intros ns. apply reports_use_false. }
    split; [exact Hq|]. intros items w.
    rewrite <- (app_nil_r nss) at 1.
    now rewrite isInUse_range_skip by exact Hq.
  - right. exists pre, ns, post.
    assert (Hq : Forall (fun ns => c k ns = inr []) pre).
    { eapply Forall_impl; [exact Hpre|].
      intros n. apply reports_use_false. }
    split; [reflexivity|]. split; [exact Hq|].
    apply reports_use_true in Hns as [[err Hns]|(item & found & Hns)].
    + right. exists err. split; [exact Hns|]. intros items w.
      rewrite isInUse_range_skip by exact Hq.
      rewrite (isInUse_range_failed _ _ _ _ err) by exact Hns.
      simpl. unfold calls. now rewrite map_app, app_assoc.
    + left. exists item, found. split; [exact Hns|]. intros items w.
      rewrite isInUse_range_skip by exact Hq.
      rewrite (isInUse_range_found _ _ _ _ (item :: found))
        by (exact Hns || (simpl; lia)).
      simpl. unfold calls. now rewrite map_app, app_assoc.
Qed.

Section Guarantees.

Variable AsSlice : gset string -> list string.
Hypothesis AsSlice_members : forall s, AsSlice s ≡ₚ elements s.

Lemma AsSlice_elem_of s ns : ns ∈ AsSlice s <-> ns ∈ s.
Proof. now rewrite (AsSlice_members s), elem_of_elements. Qed.

Lemma AsSlice_NoDup s : NoDup (AsSlice s).
Proof. rewrite (AsSlice_members s). apply NoDup_elements. Qed.

Lemma AsSlice_length s : length (AsSlice s) = size s.
Proof. now rewrite (AsSlice_members s). Qed.

(** X1. The usage check answers [true] exactly when some managed
    namespace has a failing [List] or a [List] with at least one object
    for the type of the definition; the order of the visit and the world
    it starts from play no part. *)
Theorem isInUse_true_iff wh crd w :
  fst (webhook.isInUse AsSlice wh crd w) = true <->
  exists ns,
    ns ∈ webhook.managedNamespace wh
    /\ ((exists err,
           webhook.client wh (extensionsv1.GroupVersionKind crd) ns
           = inl err)
        \/ (exists item items,
              webhook.client wh (extensionsv1.GroupVersionKind crd) ns
              = inr (item :: items))).
Proof.
  rewrite isInUse_as_range, isInUse_range_verdict, existsb_exists.
  split; intros (ns & Hin & Hns); exists ns.
  - split; [now apply AsSlice_elem_of, list_elem_of_In|].
    now apply reports_use_true.
  - split; [now apply list_elem_of_In, AsSlice_elem_of|].
    now apply reports_use_true.
Qed.

(** When [Handle] denies, for a payload that decodes. *)
Lemma Handle_denied_when wh req crd w :
  admission.DecodeRaw (webhook.decoder wh) (admission.Object req) = inr crd ->
  fst (webhook.Handle AsSlice wh req w)
    = admission.Denied "deletion of Elastic CRDs is not allowed"
  <->
  schema.Group (extensionsv1.GroupVersionKind crd) ∈ webhook.elasticGroups
  /\ exists ns,
       ns ∈ webhook.managedNamespace wh
       /\ reports_use (webhook.client wh)
            (extensionsv1.GroupVersionKind crd) ns = true.
Proof.
  intros Hdec.
  rewrite (Handle_verdict AsSlice AsSlice_members _ _ crd) by assumption.
  rewrite <- isElasticCRD_true.
  destruct (webhook.isElasticCRD (extensionsv1.GroupVersionKind crd)); simpl.
  - destruct (existsb _ _) eqn:Hex.
    + split; [intros _|reflexivity]. split; [reflexivity|].
      apply existsb_exists in Hex as (ns & Hin & Hns). exists ns.
      split; [now apply elem_of_elements, list_elem_of_In | exact Hns].
    + split; [discriminate|]. intros (_ & ns & Hin & Hns). exfalso.
      assert (Hyes : existsb
                (reports_use (webhook.client wh)
                   (extensionsv1.GroupVersionKind crd))
                (elements (webhook.managedNamespace wh)) = true);
        [|congruence].
      apply existsb_exists. exists ns.
      split; [now apply list_elem_of_In, elem_of_elements | exact Hns].
  - split; [discriminate|]. now intros [? _].
Qed.

(** X2. Once the payload decodes, [Handle] answers either [Denied] with
    its fixed reason or [Allowed] with an empty message, never [Errored];
    and it answers [Denied] exactly when the group is protected and some
    managed namespace has a failing [List] or a [List] with at least one
    object. *)
Theorem Handle_denied_iff wh req crd w :
  admission.DecodeRaw (webhook.decoder wh) (admission.Object req) = inr crd ->
  (fst (webhook.Handle AsSlice wh req w)
     = admission.Denied "deletion of Elastic CRDs is not allowed"
   \/ fst (webhook.Handle AsSlice wh req w) = admission.Allowed "")
  /\ (fst (webhook.Handle AsSlice wh req w)
        = admission.Denied "deletion of Elastic CRDs is not allowed"
      <->
      schema.Group (extensionsv1.GroupVersionKind crd)
        ∈ webhook.elasticGroups
      /\ exists ns,
           ns ∈ webhook.managedNamespace wh
           /\ ((exists err,
                  webhook.client wh (extensionsv1.GroupVersionKind crd) ns
                  = inl err)
               \/ (exists item items,
                     webhook.client wh (extensionsv1.GroupVersionKind crd) ns
                     = inr (item :: items)))).
Proof.
  intros Hdec. split.
  - rewrite (Handle_verdict AsSlice AsSlice_members _ _ crd) by assumption.
    destruct (_ && _); [now left | now right].
  - rewrite (Handle_denied_when _ _ crd) by assumption.
    split; intros (Hk & ns & Hin & Hns); (split; [exact Hk|]); exists ns;
      (split; [exact Hin|]); now apply reports_use_true.
Qed.

(** X3. For a payload that decodes, the [List] calls of [Handle] all ask
    for the type of the decoded object, each in a managed namespace and no
    namespace twice; so there are at most as many calls as managed
    namespaces. *)
Theorem Handle_lists_each_namespace_at_most_once wh req crd w :
  admission.DecodeRaw (webhook.decoder wh) (admission.Object req) = inr crd ->
  exists nss,
    listed (snd (webhook.Handle AsSlice wh req w))
    = (listed w ++ calls (extensionsv1.GroupVersionKind crd) nss)%list
    /\ NoDup nss
    /\ (forall ns, ns ∈ nss -> ns ∈ webhook.managedNamespace wh)
    /\ length nss <= size (webhook.managedNamespace wh).
Proof.
  intros Hdec.
  destruct (webhook.isElasticCRD (extensionsv1.GroupVersionKind crd)) eqn:Hk.
  - apply isElasticCRD_true in Hk.
    rewrite (Handle_protected AsSlice _ _ crd) by assumption.
    destruct (isInUse_range_cases (webhook.client wh)
                (extensionsv1.GroupVersionKind crd)
                (AsSlice (webhook.managedNamespace wh)))
      as [[_ Hrun]|(pre & ns & post & Hsplit & _ & Hrun)].
    + exists (AsSlice (webhook.managedNamespace wh)). rewrite Hrun. simpl.
      split; [reflexivity|]. split; [apply AsSlice_NoDup|].
      split; [intros ns; apply AsSlice_elem_of|].
      now rewrite AsSlice_length.
    + assert (Hw : snd (webhook.isInUse_range (webhook.client wh)
                         (unstructured.mkList
                            (extensionsv1.GroupVersionKind crd) [])
                         (AsSlice (webhook.managedNamespace wh)) w)
                   = snd (true,
                          mkWorld
                            (listed w
                             ++ calls (extensionsv1.GroupVersionKind crd)
                                  (pre ++ [ns]))
                            (logged w))
                   \/ exists extra,
                        webhook.isInUse_range (webhook.client wh)
                          (unstructured.mkList
                             (extensionsv1.GroupVersionKind crd) [])
                          (AsSlice (webhook.managedNamespace wh)) w
                        = (true,
                           mkWorld
                             (listed w
                              ++ calls (extensionsv1.GroupVersionKind crd)
                                   (pre ++ [ns]))
                             (logged w ++ extra))).
      { destruct Hrun as [(item & found & _ & Hrun)|(err & _ & Hrun)].
        - left. now rewrite Hrun.
        - right. eexists. apply Hrun. }
      assert (Hpre : AsSlice (webhook.managedNamespace wh)
                     = ((pre ++ [ns]) ++ post)%list)
        by (now rewrite <- app_assoc).
      exists (pre ++ [ns])%list. split.
      * destruct Hw as [Hw|[extra Hw]].
        -- destruct (webhook.isInUse_range _ _ _ w) as [[|] w'];
             simpl in *; now subst w'.
        -- now rewrite Hw.
      * pose proof (AsSlice_NoDup (webhook.managedNamespace wh)) as Hnd.
        rewrite Hpre in Hnd. apply NoDup_app in Hnd as (Hnd & _ & _).
        split; [exact Hnd|]. split.
        -- intros n Hn. apply AsSlice_elem_of. rewrite Hpre.
           apply elem_of_app. now left.
        -- rewrite <- AsSlice_length, Hpre, (length_app (pre ++ [ns])). lia.
  - rewrite (Handle_unprotected AsSlice _ _ crd) by assumption.
    exists []. simpl. rewrite app_nil_r.
    split; [reflexivity|]. split; [constructor|].
    split; [intros ns Hns; inversion Hns | lia].
Qed.

(** X4. [Handle] writes to the log only when a [List] has failed: either
    the log is left as it was, or exactly one entry is added, naming a
    managed namespace whose [List] failed together with that error, and the
    answer is [Denied]. *)
Theorem Handle_logs_only_failed_lists wh req w :
  logged (snd (webhook.Handle AsSlice wh req w)) = logged w
  \/ exists crd ns err,
       admission.DecodeRaw (webhook.decoder wh) (admission.Object req)
       = inr crd
       /\ ns ∈ webhook.managedNamespace wh
       /\ webhook.client wh (extensionsv1.GroupVersionKind crd) ns = inl err
       /\ logged (snd (webhook.Handle AsSlice wh req w))
          = (logged w
             ++ [mkLogEntry "crd-delete-validation" err
                   "Failed to list resources" [("namespace", ns)]])%list
       /\ fst (webhook.Handle AsSlice wh req w)
          = admission.Denied "deletion of Elastic CRDs is not allowed".
Proof.
  destruct (admission.DecodeRaw (webhook.decoder wh) (admission.Object req))
    as [e|crd] eqn:Hdec.
  { left. unfold webhook.Handle. now rewrite Hdec. }
  destruct (webhook.isElasticCRD (extensionsv1.GroupVersionKind crd)) eqn:Hk.
  - apply isElasticCRD_true in Hk.
    rewrite (Handle_protected AsSlice _ _ crd) by assumption.
    destruct (isInUse_range_cases (webhook.client wh)
                (extensionsv1.GroupVersionKind crd)
                (AsSlice (webhook.managedNamespace wh)))
      as [[_ Hrun]|(pre & ns & post & Hsplit & _ &
                    [(item & found & _ & Hrun)|(err & Hns & Hrun)])];
      rewrite Hrun; simpl.
    + now left.
    + now left.
    + right. exists crd, ns, err. repeat split; try assumption.
      apply AsSlice_elem_of. rewrite Hsplit.
      apply elem_of_app. right. now left.
  - left. now rewrite (Handle_unprotected AsSlice _ _ crd).
Qed.

(** X5. [Handle] keeps nothing from one request to the next: from any
    world it gives the verdict it gives from the empty world and appends
    the same calls and the same log entries. *)
Theorem Handle_ignores_history wh req w :
  webhook.Handle AsSlice wh req w =
  (fst (webhook.Handle AsSlice wh req start),
   mkWorld
     (listed w ++ listed (snd (webhook.Handle AsSlice wh req start)))
     (logged w ++ logged (snd (webhook.Handle AsSlice wh req start)))).
Proof.
  unfold webhook.Handle.
  destruct (admission.DecodeRaw _ _) as [e|crd]; simpl.
  { unfold ret. simpl. rewrite !app_nil_r. now destruct w. }
  destruct (webhook.isElasticCRD _); simpl; unfold bind.
  - rewrite isInUse_as_range.
    destruct (isInUse_range_cases (webhook.client wh)
                (extensionsv1.GroupVersionKind crd)
                (AsSlice (webhook.managedNamespace wh)))
      as [[_ Hrun]|(pre & ns & post & _ & _ &
                    [(item & found & _ & Hrun)|(err & _ & Hrun)])];
      rewrite !Hrun; unfold ret; simpl; rewrite ?app_nil_r; reflexivity.
  - unfold ret. simpl. rewrite !app_nil_r. now destruct w.
Qed.

(** X8. A protected type is allowed only after a full scan: if [Handle]
    answers [Allowed] for a payload of a protected group, then it has
    called [List] once in every managed namespace, each call succeeded with
    no object, and nothing was logged. *)
Theorem Handle_allows_protected_only_after_full_scan wh req crd w :
  admission.DecodeRaw (webhook.decoder wh) (admission.Object req) = inr crd ->
  schema.Group (extensionsv1.GroupVersionKind crd) ∈ webhook.elasticGroups ->
  fst (webhook.Handle AsSlice wh req w) = admission.Allowed "" ->
  (forall ns, ns ∈ webhook.managedNamespace wh ->
     webhook.client wh (extensionsv1.GroupVersionKind crd) ns = inr [])
  /\ exists nss,
       nss ≡ₚ elements (webhook.managedNamespace wh)
       /\ snd (webhook.Handle AsSlice wh req w)
          = mkWorld
              (listed w ++ calls (extensionsv1.GroupVersionKind crd) nss)
              (logged w).
Proof.
  intros Hdec Hprot.
  rewrite (Handle_protected AsSlice _ _ crd) by assumption.
  destruct (isInUse_range_cases (webhook.client wh)
              (extensionsv1.GroupVersionKind crd)
              (AsSlice (webhook.managedNamespace wh)))
    as [[Hquiet Hrun]|(pre & ns & post & _ & _ &
                       [(item & found & _ & Hrun)|(err & _ & Hrun)])];
    rewrite Hrun; simpl; try discriminate.
  intros _. split.
  - intros ns Hin. rewrite Forall_forall in Hquiet.
    now apply Hquiet, AsSlice_elem_of.
  - exists (AsSlice (webhook.managedNamespace wh)).
    split; [apply AsSlice_members | reflexivity].
Qed.

End Guarantees.

(** ** Which apiVersion strings name a protected type *)

Lemma sub_zero_slice s i :
  strings.slice s 0 i = String.substring 0 i s.
Proof. unfold strings.slice. now rewrite Nat.sub_0_r. Qed.

Lemma substring_whole s : String.substring 0 (String.length s) s = s.
Proof. induction s as [|a s IH]; simpl; [reflexivity | now rewrite IH]. Qed.

(** Where [Index] finds the separator, the string splits around it, the
    part before it being free of the separator. *)
Lemma Index_split s c i :
  strings.Index s c = Some i ->
  s = (strings.slice s 0 i
       ++ String c (strings.slice s (i + 1) (String.length s)))%string
  /\ strings.Count (strings.slice s 0 i) c = 0
  /\ strings.Count s c
     = S (strings.Count (strings.slice s (i + 1) (String.length s)) c).
Proof.
  revert i. induction s as [|a s IH]; intros i; simpl; [discriminate|].
  destruct (Ascii.eqb_spec a c) as [->|Hne].
  - intros [= <-]. unfold strings.slice. simpl.
    rewrite Nat.sub_0_r, substring_whole. auto.
  - destruct (strings.Index s c) as [j|] eqn:Hj; [|discriminate].
    intros [= <-]. destruct (IH j eq_refl) as (Hs & Hpre & Hcount).
    rewrite sub_zero_slice in *. unfold strings.slice in *. simpl.
    destruct (Ascii.eqb_spec a c) as [|_]; [contradiction|].
    repeat split; [rewrite Hs at 1; reflexivity | exact Hpre | exact Hcount].
Qed.

Lemma Index_join g c v :
  strings.Count g c = 0 ->
  strings.Index (g ++ String c v)%string c = Some (String.length g).
Proof.
  induction g as [|a g IH]; simpl.
  - now rewrite Ascii.eqb_refl.
  - destruct (Ascii.eqb a c); [discriminate|]. intros H. now rewrite IH.
Qed.

Lemma Count_join g c v :
  strings.Count (g ++ String c v)%string c
  = S (strings.Count g c + strings.Count v c).
Proof.
  induction g as [|a g IH]; simpl.
  - now rewrite Ascii.eqb_refl.
  - destruct (Ascii.eqb a c); rewrite IH; simpl; lia.
Qed.

Lemma slice_join g c v :
  strings.slice (g ++ String c v)%string 0 (String.length g) = g
  /\ strings.slice (g ++ String c v)%string (String.length g + 1)
       (String.length (g ++ String c v)%string) = v.
Proof.
  rewrite sub_zero_slice. unfold strings.slice.
  induction g as [|a g [IH1 IH2]]; simpl.
  - rewrite Nat.sub_0_r, substring_whole. auto.
  - now rewrite IH1, IH2.
Qed.

(** A parse with a non-empty group comes from [group/version] and from
    nothing else. *)
Lemma ParseGroupVersion_named gv g v :
  g <> "" ->
  schema.ParseGroupVersion gv = inr (schema.mkGV g v) <->
  gv = (g ++ "/" ++ v)%string
  /\ strings.Count g "/"%char = 0 /\ strings.Count v "/"%char = 0.
Proof.
  intros Hg. unfold schema.ParseGroupVersion. split.
  - destruct ((String.length gv =? 0)%nat || String.eqb gv "/");
      [intros [= <- _]; contradiction|].
    destruct (strings.Count gv "/"%char) as [|[|n]] eqn:Hcount;
      [intros [= <- _]; contradiction | | discriminate].
    destruct (strings.Index gv "/"%char) as [i|] eqn:Hi;
      [|intros [= <- _]; contradiction].
    intros [= <- <-].
    destruct (Index_split _ _ _ Hi) as (Hs & Hpre & Hc).
    repeat split; [exact Hs | exact Hpre | congruence].
  - intros (-> & Hcg & Hcv).
    change ("/" ++ v)%string with (String "/"%char v).
    assert (Hcond : (String.length (g ++ String "/"%char v) =? 0)%nat
                    || String.eqb (g ++ String "/"%char v) "/" = false).
    { destruct g as [|a g]; [contradiction|].
      change (String.eqb (String a (g ++ String "/"%char v)) "/" = false).
      apply String.eqb_neq. intros [= -> H]. destruct g; discriminate H. }
    rewrite Hcond, Count_join, Hcg, Hcv. simpl Nat.add. cbv iota.
    rewrite (Index_join _ _ _ Hcg).
    destruct (slice_join g "/"%char v) as [-> ->].
    reflexivity.
Qed.

Lemma elasticGroups_named :
  Forall (fun g => g <> "" /\ strings.Count g "/"%char = 0)
    webhook.elasticGroups.
Proof. repeat constructor; discriminate. Qed.

(** X6. The type of a decoded object is protected exactly when its
    apiVersion reads [group/version] with one of the ten groups before the
    slash and no further slash after it.  A bare version, a core-group
    apiVersion and an apiVersion with two slashes are never protected. *)
Theorem protected_apiVersion_shape crd :
  webhook.isElasticCRD (extensionsv1.GroupVersionKind crd) = true <->
  exists g v,
    g ∈ webhook.elasticGroups
    /\ strings.Count v "/"%char = 0
    /\ metav1.APIVersion (extensionsv1.TypeMeta crd) = (g ++ "/" ++ v)%string.
Proof.
  rewrite isElasticCRD_true.
  unfold extensionsv1.GroupVersionKind, metav1.GroupVersionKind,
    schema.FromAPIVersionAndKind.
  pose proof elasticGroups_named as Hnamed.
  rewrite Forall_forall in Hnamed.
  split.
  - destruct (schema.ParseGroupVersion _) as [e|[g v]] eqn:Hparse; simpl.
    + intros Hin. apply isElasticCRD_true with (k := schema.mkGVK "" "" "")
        in Hin. discriminate Hin.
    + intros Hin. destruct (Hnamed g Hin) as [Hg _].
      apply (ParseGroupVersion_named _ _ _ Hg) in Hparse as (Hgv & _ & Hv).
      now exists g, v.
  - intros (g & v & Hin & Hv & ->). destruct (Hnamed g Hin) as [Hg Hcg].
    assert (Hparse : schema.ParseGroupVersion (g ++ "/" ++ v)
                     = inr (schema.mkGV g v))
      by (now apply ParseGroupVersion_named).
    now rewrite Hparse.
Qed.

(** ** Registration *)


(** ** The further properties at work on the small cluster *)

Lemma isInUse_true_iff_witness :
  fst (webhook.isInUse elements (cluster.guard cluster.brokenB cluster.ab)
         cluster.elasticsearch start) = true
  <->
  exists ns,
    ns ∈ cluster.ab
    /\ ((exists err,
           cluster.brokenB
             (extensionsv1.GroupVersionKind cluster.elasticsearch) ns
           = inl err)
        \/ (exists item items,
              cluster.brokenB
                (extensionsv1.GroupVersionKind cluster.elasticsearch) ns
              = inr (item :: items))).
Proof.
  apply (isInUse_true_iff elements (fun s => reflexivity _)
           (cluster.guard cluster.brokenB cluster.ab)
           cluster.elasticsearch start).
Defined.

Lemma Handle_denied_iff_witness :
  fst (webhook.Handle elements (cluster.guard cluster.oneInB cluster.ab)
         (cluster.request admission.Delete ["e"%byte]) start)
  = admission.Denied "deletion of Elastic CRDs is not allowed"
  \/ fst (webhook.Handle elements (cluster.guard cluster.oneInB cluster.ab)
            (cluster.request admission.Delete ["e"%byte]) start)
     = admission.Allowed "".
Proof.
  apply (Handle_denied_iff elements (fun s => reflexivity _)
           (cluster.guard cluster.oneInB cluster.ab)
           (cluster.request admission.Delete ["e"%byte])
           cluster.elasticsearch start).
  reflexivity.
Defined.

Lemma Handle_lists_each_namespace_at_most_once_witness :
  exists nss,
    listed (snd (webhook.Handle elements
                   (cluster.guard cluster.oneInB cluster.ab)
                   (cluster.request admission.Delete ["e"%byte]) start))
    = (listed start
       ++ calls (extensionsv1.GroupVersionKind cluster.elasticsearch) nss)%list
    /\ NoDup nss
    /\ (forall ns, ns ∈ nss -> ns ∈ cluster.ab)
    /\ length nss <= size cluster.ab.
Proof.
  apply (Handle_lists_each_namespace_at_most_once elements
           (fun s => reflexivity _)
           (cluster.guard cluster.oneInB cluster.ab)
           (cluster.request admission.Delete ["e"%byte])
           cluster.elasticsearch start).
  reflexivity.
Defined.

Lemma Handle_logs_only_failed_lists_witness :
  logged (snd (webhook.Handle elements
                 (cluster.guard cluster.brokenB cluster.ab)
                 (cluster.request admission.Delete ["e"%byte]) start))
  = [mkLogEntry "crd-delete-validation" "connection refused"
       "Failed to list resources" [("namespace", "ns-b")]].
Proof.
  destruct (Handle_logs_only_failed_lists elements (fun s => reflexivity _)
              (cluster.guard cluster.brokenB cluster.ab)
              (cluster.request admission.Delete ["e"%byte]) start)
    as [Hsame|_].
  - vm_compute in Hsame. discriminate Hsame.
  - vm_compute. reflexivity.
Defined.


Lemma Handle_allows_protected_only_after_full_scan_witness :
  (forall ns, ns ∈ cluster.ab ->
     cluster.vacant (extensionsv1.GroupVersionKind cluster.elasticsearch) ns
     = inr [])
  /\ exists nss,
       nss ≡ₚ elements cluster.ab
       /\ snd (webhook.Handle elements
                 (cluster.guard cluster.vacant cluster.ab)
                 (cluster.request admission.Delete ["e"%byte]) start)
          = mkWorld
              (listed start
               ++ calls (extensionsv1.GroupVersionKind cluster.elasticsearch)
                    nss)
              (logged start).
Proof.
  apply (Handle_allows_protected_only_after_full_scan elements
           (fun s => reflexivity _)
           (cluster.guard cluster.vacant cluster.ab)
           (cluster.request admission.Delete ["e"%byte])
           cluster.elasticsearch start).
  - reflexivity.
  - apply isElasticCRD_true. reflexivity.
  - vm_compute. reflexivity.
Defined.
